(** * HMG-Demo: the input validators of [src/utils/validators.ts]

    A shallow embedding of the RUC (Peruvian taxpayer id) validator, of
    its diagnostic companion [getRUCError] and of the length validators,
    together with the constants of [src/utils/constants.ts] they import.

    Layout: the JavaScript primitives the validators call (strings,
    numbers, regular expressions, array reads), then the validators
    themselves, then the properties of the specification. *)

From Stdlib Require Import List ZArith NArith Bool String Ascii Lia.
Import ListNotations.
Local Open Scope Z_scope.

(* ===================================================================== *)
(** ** JavaScript strings *)
(* ===================================================================== *)

(** A JavaScript string is a finite sequence of UTF-16 code units.
    [.length], [trim], [startsWith], [split('')] and the regular
    expressions used here (no [u] flag) all work on code units. *)
Definition code_unit := N.
Definition jsstring := list code_unit.

(** A source literal made of ASCII characters only. *)
Definition lit (s : string) : jsstring :=
  map N_of_ascii (list_ascii_of_string s).

(** [s.length] *)
Definition str_length (s : jsstring) : Z := Z.of_nat (List.length s).

(** ECMAScript WhiteSpace and LineTerminator code points, the set that
    [String.prototype.trim] strips: TAB, LF, VT, FF, CR, SP, NBSP,
    U+1680, U+2000..U+200A, LS, PS, U+202F, U+205F, U+3000, BOM. *)
Definition is_white_space (c : code_unit) : bool :=
  ((9 <=? c) && (c <=? 13) || (c =? 32) || (c =? 160) || (c =? 5760)
   || (8192 <=? c) && (c <=? 8202) || (c =? 8232) || (c =? 8233)
   || (c =? 8239) || (c =? 8287) || (c =? 12288) || (c =? 65279))%N.

(** [s.trimStart()] *)
Fixpoint trimStart (s : jsstring) : jsstring :=
  match s with
  | [] => []
  | c :: rest => if is_white_space c then trimStart rest else s
  end.

(** [s.trimEnd()] *)
Definition trimEnd (s : jsstring) : jsstring := rev (trimStart (rev s)).

(** [s.trim()] *)
Definition trim (s : jsstring) : jsstring := trimEnd (trimStart s).

(** [s.startsWith(prefix)] *)
Fixpoint startsWith (s prefix : jsstring) : bool :=
  match prefix, s with
  | [], _ => true
  | _ :: _, [] => false
  | p :: prefix', c :: s' => (p =? c)%N && startsWith s' prefix'
  end.

(** The regular-expression class [\d]: the ten ASCII digits, with or
    without the [u] flag. *)
Definition is_digit (c : code_unit) : bool := ((48 <=? c) && (c <=? 57))%N.

(* ===================================================================== *)
(** ** JavaScript numbers *)
(* ===================================================================== *)

(** The numbers the validators compute with are integers far below 2^53,
    where double arithmetic is exact; [Num z] is the double of integer
    value [z]. [NaN] is kept because [Number] and arithmetic on
    [undefined] produce it. *)
Inductive number : Type :=
| NaN
| Num (z : Z).

(** A value read from an array: [None] is [undefined], what an index out
    of range yields. *)
Definition element := option number.

(** ToNumber on such a value: [undefined] becomes [NaN]. *)
Definition to_number (v : element) : number :=
  match v with
  | Some n => n
  | None => NaN
  end.

Definition num_lift2 (f : Z -> Z -> Z) (a b : number) : number :=
  match a, b with
  | Num x, Num y => Num (f x y)
  | _, _ => NaN
  end.

Definition num_add : number -> number -> number := num_lift2 Z.add.
Definition num_sub : number -> number -> number := num_lift2 Z.sub.
Definition num_mul : number -> number -> number := num_lift2 Z.mul.

(** [a % b]: the remainder takes the sign of the dividend, and a zero
    divisor gives [NaN]. *)
Definition num_rem (a b : number) : number :=
  match a, b with
  | Num x, Num y => if y =? 0 then NaN else Num (Z.rem x y)
  | _, _ => NaN
  end.

(** [a === b] on numbers: [NaN] equals nothing. *)
Definition num_strict_eq (a b : number) : bool :=
  match a, b with
  | Num x, Num y => x =? y
  | _, _ => false
  end.

(** [v === b] where [v] was read from an array: [undefined] is not a
    number, so the comparison is false. *)
Definition strict_eq (v : element) (b : number) : bool :=
  match v with
  | Some a => num_strict_eq a b
  | None => false
  end.

(** [Number(s)] for a string [s] of exactly one code unit [c], the only
    strings [split('')] produces: a digit is its value, a white space
    character is the empty numeric literal (0), anything else is not a
    numeric literal. *)
Definition Number_unit (c : code_unit) : number :=
  if is_digit c then Num (Z.of_N c - 48)
  else if is_white_space c then Num 0
  else NaN.

(** [s.split('').map(Number)]: [split('')] cuts [s] into its code units,
    [map] applies [Number] to each (the extra index and array arguments
    of the callback are ignored by [Number]). *)
Definition split_map_Number (s : jsstring) : list number :=
  map Number_unit s.

(** [String(n)] for a non-negative integer: its decimal digits. *)
Fixpoint uint_units (d : Decimal.uint) : jsstring :=
  match d with
  | Decimal.Nil => []
  | Decimal.D0 r => 48%N :: uint_units r
  | Decimal.D1 r => 49%N :: uint_units r
  | Decimal.D2 r => 50%N :: uint_units r
  | Decimal.D3 r => 51%N :: uint_units r
  | Decimal.D4 r => 52%N :: uint_units r
  | Decimal.D5 r => 53%N :: uint_units r
  | Decimal.D6 r => 54%N :: uint_units r
  | Decimal.D7 r => 55%N :: uint_units r
  | Decimal.D8 r => 56%N :: uint_units r
  | Decimal.D9 r => 57%N :: uint_units r
  end.

Definition toString (n : Z) : jsstring := uint_units (N.to_uint (Z.to_N n)).

(* ===================================================================== *)
(** ** Regular expressions *)
(* ===================================================================== *)

(** The fragment of the pattern language the validators use, matched by
    derivatives. *)
Inductive regex : Type :=
| Void
| Eps
| Class (p : code_unit -> bool)
| Cat (r1 r2 : regex)
| Alt (r1 r2 : regex)
| Star (r : regex).

Fixpoint nullable (r : regex) : bool :=
  match r with
  | Void => false
  | Eps => true
  | Class _ => false
  | Cat r1 r2 => nullable r1 && nullable r2
  | Alt r1 r2 => nullable r1 || nullable r2
  | Star _ => true
  end.

Fixpoint deriv (r : regex) (c : code_unit) : regex :=
  match r with
  | Void => Void
  | Eps => Void
  | Class p => if p c then Eps else Void
  | Cat r1 r2 =>
      if nullable r1 then Alt (Cat (deriv r1 c) r2) (deriv r2 c)
      else Cat (deriv r1 c) r2
  | Alt r1 r2 => Alt (deriv r1 c) (deriv r2 c)
  | Star r1 => Cat (deriv r1 c) (Star r1)
  end.

(** Does the whole of [s] match [r]? *)
Fixpoint matches (r : regex) (s : jsstring) : bool :=
  match s with
  | [] => nullable r
  | c :: rest => matches (deriv r c) rest
  end.

(** [r{n}] *)
Fixpoint Repeat (n : nat) (r : regex) : regex :=
  match n with
  | O => Eps
  | S k => Cat r (Repeat k r)
  end.

(** [r+] *)
Definition Plus (r : regex) : regex := Cat r (Star r).

(** [/^r$/.test(s)]. The literals carry no flag: without [m], [^] and [$]
    match only at the two ends of the input, so the test is a match of
    the whole string; without [g] or [y], [test] neither reads nor writes
    [lastIndex], and each evaluation of a literal is a fresh object. *)
Definition test_anchored (r : regex) (s : jsstring) : bool := matches r s.

(** [/^\d{11}$/] and [/^\d+$/] *)
Definition re_eleven_digits : regex := Repeat 11 (Class is_digit).
Definition re_digits : regex := Plus (Class is_digit).

(* ===================================================================== *)
(** ** Module state and array reads *)
(* ===================================================================== *)

(** [constants.ts] exports two arrays. A [const] binding fixes the
    binding, not the array: the arrays are shared mutable objects, so
    they form the state the validators run in. *)
Record Constants : Type := {
  RUC_VALID_PREFIXES : list jsstring;
  RUC_FACTORS : list number
}.

(** [RUC_LENGTH] is a primitive, hence immutable. *)
Definition RUC_LENGTH : Z := 11.

(** The arrays as [constants.ts] initialises them; nothing in the
    repository writes to them afterwards. *)
Definition constants : Constants := {|
  RUC_VALID_PREFIXES := [lit "10"; lit "15"; lit "17"; lit "20"];
  RUC_FACTORS := [Num 5; Num 4; Num 3; Num 2; Num 7; Num 6; Num 5; Num 4;
                  Num 3; Num 2]
|}.

(** One indexed read [a[i]]: the length of [a] at that time, and [i]. *)
Record Access : Type := { arr_length : nat; arr_index : nat }.

Definition in_range (a : Access) : Prop := (arr_index a < arr_length a)%nat.

(** The outcome of running a piece of code: its value, the module state
    it leaves, and the indexed reads it performed, in order. The list of
    reads is an observation of the run; no code can inspect it. *)
Record Run (A : Type) : Type := {
  value : A;
  store : Constants;
  reads : list Access
}.
Arguments value {A} _.
Arguments store {A} _.
Arguments reads {A} _.

Definition M (A : Type) : Type := Constants -> Run A.

Definition ret {A : Type} (a : A) : M A :=
  fun st => {| value := a; store := st; reads := [] |}.

Definition bind {A B : Type} (c : M A) (k : A -> M B) : M B :=
  fun st =>
    let r1 := c st in
    let r2 := k (value r1) (store r1) in
    {| value := value r2; store := store r2; reads := reads r1 ++ reads r2 |}.

Notation "x <- c ;; k" := (bind c (fun x => k))
  (at level 61, c at next level, right associativity).

(** Evaluation of the imported identifiers. *)
Definition get_RUC_VALID_PREFIXES : M (list jsstring) :=
  fun st => {| value := RUC_VALID_PREFIXES st; store := st; reads := [] |}.

Definition get_RUC_FACTORS : M (list number) :=
  fun st => {| value := RUC_FACTORS st; store := st; reads := [] |}.

(** [a[i]]: the element, or [undefined] when [i] is out of range. *)
Definition index {A : Type} (a : list A) (i : nat) : M (option A) :=
  fun st => {| value := nth_error a i; store := st;
               reads := [ {| arr_length := List.length a; arr_index := i |} ] |}.

(** [for (let i = from; i < to; i++) acc = body(i, acc)], the loop
    variable counted down by the number of iterations left. *)
Fixpoint for_iter {A : Type} (left : nat) (i : nat)
    (body : nat -> A -> M A) (acc : A) : M A :=
  match left with
  | O => ret acc
  | S left' => acc' <- body i acc ;; for_iter left' (S i) body acc'
  end.

Definition for_range {A : Type} (from to : nat)
    (body : nat -> A -> M A) (acc : A) : M A :=
  for_iter (to - from) from body acc.

(** [array.some(f)] for a callback without effects. *)
Definition some {A : Type} (f : A -> bool) (a : list A) : bool := existsb f a.

(* ===================================================================== *)
(** ** The validators *)
(* ===================================================================== *)

(** [validateRUC(ruc)] *)
Definition validateRUC (ruc : jsstring) : M bool :=
  let cleanRuc := trim ruc in
  if negb (test_anchored re_eleven_digits cleanRuc) then ret false else
  prefixes <- get_RUC_VALID_PREFIXES ;;
  let hasValidPrefix := some (fun prefix => startsWith cleanRuc prefix) prefixes in
  if negb hasValidPrefix then ret false else
  let digits := split_map_Number cleanRuc in
  sum <- for_range 0 10 (fun i sum =>
           d <- index digits i ;;
           factors <- get_RUC_FACTORS ;;
           f <- index factors i ;;
           ret (num_add sum (num_mul (to_number d) (to_number f))))
         (Num 0) ;;
  let remainder := num_rem sum (Num 11) in
  let checkDigit := num_sub (Num 11) remainder in
  let expectedDigit :=
    if num_strict_eq checkDigit (Num 10) then Num 0
    else if num_strict_eq checkDigit (Num 11) then Num 1
    else checkDigit in
  last <- index digits 10 ;;
  ret (strict_eq last expectedDigit).

(** The five messages of [getRUCError]; the accented letters are the
    code units U+00FA, U+00ED and U+00E1. *)
Definition msg_required : jsstring := lit "El RUC es requerido".
Definition msg_digits_only : jsstring :=
  lit "El RUC solo debe contener n" ++ [250%N] ++ lit "meros".
Definition msg_length : jsstring :=
  lit "El RUC debe tener exactamente " ++ toString RUC_LENGTH
    ++ lit " d" ++ [237%N] ++ lit "gitos".
Definition msg_prefix : jsstring := lit "El RUC debe iniciar con 10, 15, 17 o 20".
Definition msg_not_valid : jsstring :=
  lit "El RUC ingresado no es v" ++ [225%N] ++ lit "lido".

(** [getRUCError(ruc)]; [None] is [null]. *)
Definition getRUCError (ruc : jsstring) : M (option jsstring) :=
  let cleanRuc := trim ruc in
  if str_length cleanRuc =? 0 then ret (Some msg_required) else
  if negb (test_anchored re_digits cleanRuc) then ret (Some msg_digits_only) else
  if negb (str_length cleanRuc =? RUC_LENGTH) then ret (Some msg_length) else
  prefixes <- get_RUC_VALID_PREFIXES ;;
  let hasValidPrefix := some (fun prefix => startsWith cleanRuc prefix) prefixes in
  if negb hasValidPrefix then ret (Some msg_prefix) else
  ok <- validateRUC cleanRuc ;;
  if negb ok then ret (Some msg_not_valid) else
  ret None.

(** [validateUsername(username)] *)
Definition validateUsername (username : jsstring) : bool :=
  let clean := trim username in
  (3 <=? str_length clean) && (str_length clean <=? 50).

(** [validatePassword(password)] *)
Definition validatePassword (password : jsstring) : bool :=
  4 <=? str_length password.

(** [validateClientName(name)] *)
Definition validateClientName (name : jsstring) : bool :=
  let clean := trim name in
  (2 <=? str_length clean) && (str_length clean <=? 200).

(* ===================================================================== *)
(** ** The specification's vocabulary *)
(* ===================================================================== *)

(** These definitions follow the words of the specification, not the
    code; the theorems below relate the two. *)

(** Accepted two-digit prefixes: {"10", "15", "17", "20"}. *)
Definition accepted_prefixes : list jsstring :=
  [lit "10"; lit "15"; lit "17"; lit "20"].

(** Positional weights for the digits at index 0..9. *)
Definition weights : list Z := [5; 4; 3; 2; 7; 6; 5; 4; 3; 2].

(** The integer a decimal digit character stands for. *)
Definition digit_value (c : code_unit) : Z := Z.of_N c - 48.

Fixpoint str_eqb (a b : jsstring) : bool :=
  match a, b with
  | [], [] => true
  | x :: a', y :: b' => (x =? y)%N && str_eqb a' b'
  | _, _ => false
  end.

(** "its first two characters form one of the prefixes" *)
Definition has_accepted_prefix (t : jsstring) : bool :=
  existsb (str_eqb (firstn 2 t)) accepted_prefixes.

(** sum = Σ d[i] * weight[i] for i in 0..9 *)
Definition weighted_sum (d : list Z) : Z :=
  fold_right Z.add 0 (map (fun i => nth i d 0 * nth i weights 0) (seq 0 10)).

(** remainder = sum mod 11; checkDigit = 11 - remainder; normalised to 0
    when checkDigit = 10, to 1 when checkDigit = 11. *)
Definition expected_check_digit (d : list Z) : Z :=
  let remainder := weighted_sum d mod 11 in
  let checkDigit := 11 - remainder in
  if checkDigit =? 10 then 0
  else if checkDigit =? 11 then 1
  else checkDigit.

(** "its 11th digit d[10] equals the expected check digit" *)
Definition check_digit_ok (t : jsstring) : bool :=
  let d := map digit_value t in
  nth 10 d 0 =? expected_check_digit d.

(** The validity invariant of the data model, on the untrimmed input. *)
Definition ruc_valid (s : jsstring) : Prop :=
  let t := trim s in
  List.length t = 11%nat
  /\ forallb is_digit t = true
  /\ has_accepted_prefix t = true
  /\ check_digit_ok t = true.

(** The enumerated violation reasons of [explain], in rule order. *)
Inductive Violation : Type :=
| Required
| DigitsOnly
| ExactLength
| BadPrefix
| NotValid.

Definition message (v : Violation) : jsstring :=
  match v with
  | Required => msg_required
  | DigitsOnly => msg_digits_only
  | ExactLength => msg_length
  | BadPrefix => msg_prefix
  | NotValid => msg_not_valid
  end.

(** The first rule violated, in the fixed order of the specification. *)
Definition first_violation (s : jsstring) : option Violation :=
  let t := trim s in
  if (List.length t =? 0)%nat then Some Required
  else if existsb (fun c => negb (is_digit c)) t then Some DigitsOnly
  else if negb (List.length t =? 11)%nat then Some ExactLength
  else if negb (has_accepted_prefix t) then Some BadPrefix
  else if negb (check_digit_ok t) then Some NotValid
  else None.

(** *** Closed forms of the checksum loop

    What one run of the loop of [validateRUC] computes and reads, written
    without the monad; [validateRUC_run] below proves the code equal to
    them in every module state. *)

(** [digits[k] * RUC_FACTORS[k]] *)
Definition checksum_term (digits factors : list number) (k : nat) : number :=
  num_mul (to_number (nth_error digits k)) (to_number (nth_error factors k)).

Definition checksum_sum (digits factors : list number) (from count : nat)
    (acc : number) : number :=
  fold_left (fun a k => num_add a (checksum_term digits factors k))
    (seq from count) acc.

Definition checksum_accesses (digits factors : list number) (from count : nat)
    : list Access :=
  flat_map (fun k => [ {| arr_length := List.length digits; arr_index := k |};
                       {| arr_length := List.length factors; arr_index := k |} ])
    (seq from count).

Definition normalise (checkDigit : number) : number :=
  if num_strict_eq checkDigit (Num 10) then Num 0
  else if num_strict_eq checkDigit (Num 11) then Num 1
  else checkDigit.

Definition checksum_run (digits : list number) (st : Constants) : Run bool :=
  {| value :=
       strict_eq (nth_error digits 10)
         (normalise (num_sub (Num 11)
            (num_rem (checksum_sum digits (RUC_FACTORS st) 0 10 (Num 0)) (Num 11))));
     store := st;
     reads := checksum_accesses digits (RUC_FACTORS st) 0 10
              ++ [ {| arr_length := List.length digits; arr_index := 10 |} ] |}.

(** What a string looks like once its front is trimmed. *)
Definition front_clean (s : jsstring) : Prop :=
  match s with
  | [] => True
  | c :: _ => is_white_space c = false
  end.

(** A piece of code leaves the module state as it found it. *)
Definition preserves_store {A : Type} (c : M A) : Prop :=
  forall st, store (c st) = st.

(* ===================================================================== *)
(** ** The rest of [validators.ts] and the forms that validate input *)
(* ===================================================================== *)

(** The three messages of [getClientNameError]. *)
Definition msg_name_required : jsstring := lit "El nombre del cliente es requerido".
Definition msg_name_min : jsstring :=
  lit "El nombre debe tener al menos 2 caracteres".
Definition msg_name_max : jsstring :=
  lit "El nombre no puede exceder 200 caracteres".

(** [getClientNameError(name)]; [None] is [null]. *)
Definition getClientNameError (name : jsstring) : option jsstring :=
  let clean := trim name in
  if str_length clean =? 0 then Some msg_name_required else
  if str_length clean <? 2 then Some msg_name_min else
  if str_length clean >? 200 then Some msg_name_max else
  None.

(** The condition of [if (v)] for [v : string | null]: [null] and the
    empty string are falsy. *)
Definition truthy (v : option jsstring) : bool :=
  match v with
  | Some (_ :: _) => true
  | _ => false
  end.

(** [!s] for a string [s]. *)
Definition str_not (s : jsstring) : bool :=
  match s with
  | [] => true
  | _ :: _ => false
  end.

(** [a !== b] on strings. *)
Definition str_strict_neq (a b : jsstring) : bool := negb (str_eqb a b).

(** The error objects the forms build: property names with string
    values, in insertion order. *)
Definition object := list (string * jsstring).

(** [o.k = v] *)
Fixpoint set_prop (o : object) (k : string) (v : jsstring) : object :=
  match o with
  | [] => [(k, v)]
  | (k', v') :: rest =>
      if String.eqb k k' then (k, v) :: rest
      else (k', v') :: set_prop rest k v
  end.

(** [o.k], [None] when the property is absent. *)
Fixpoint get_prop (o : object) (k : string) : option jsstring :=
  match o with
  | [] => None
  | (k', v') :: rest => if String.eqb k k' then Some v' else get_prop rest k
  end.

(** [Object.keys(o)] *)
Definition Object_keys (o : object) : list string := map fst o.

(** [if (v) { o.k = v; }] for [v : string | null]. *)
Definition set_if_truthy (o : object) (k : string) (v : option jsstring)
    : object :=
  match v with
  | Some (c :: m) => set_prop o k (c :: m)
  | _ => o
  end.

(** [Object.keys(o).length === 0] *)
Definition no_keys (o : object) : bool :=
  Z.of_nat (List.length (Object_keys o)) =? 0.

(** [app/(auth)/register.tsx], the form that registers a client record.
    [validate] returns the object it hands to [setErrors] and its
    boolean result; [handleSave] saves [ruc.trim()] and
    [clientName.trim()] only when the result is true. *)
Module RecordRegisterScreen.

Definition validate (ruc clientName : jsstring) : M (object * bool) :=
  let newErrors : object := [] in
  rucError <- getRUCError ruc ;;
  let newErrors := set_if_truthy newErrors "ruc" rucError in
  let nameError := getClientNameError clientName in
  let newErrors := set_if_truthy newErrors "clientName" nameError in
  ret (newErrors, no_keys newErrors).

End RecordRegisterScreen.

(** The records screen: [validateEdit] of the edit dialog, which saves
    [editRuc.trim()] and [editClientName.trim()] when it returns true. *)
Module RecordsScreen.

Definition validateEdit (editRuc editClientName : jsstring)
    : M (object * bool) :=
  let newErrors : object := [] in
  rucError <- getRUCError editRuc ;;
  let newErrors := set_if_truthy newErrors "ruc" rucError in
  let nameError := getClientNameError editClientName in
  let newErrors := set_if_truthy newErrors "clientName" nameError in
  ret (newErrors, no_keys newErrors).

End RecordsScreen.

(** [app/login.tsx]: [validate] of the login form. The accented letter
    is the code unit U+00F1. *)
Module LoginScreen.

Definition msg_username_required : jsstring := lit "El usuario es requerido".
Definition msg_username_min : jsstring :=
  lit "El usuario debe tener al menos 3 caracteres".
Definition msg_password_required : jsstring :=
  lit "La contrase" ++ [241%N] ++ lit "a es requerida".
Definition msg_password_min : jsstring :=
  lit "La contrase" ++ [241%N] ++ lit "a debe tener al menos 4 caracteres".

Definition validate (username password : jsstring) : object * bool :=
  let newErrors : object := [] in
  let newErrors :=
    if str_not (trim username) then
      set_prop newErrors "username" msg_username_required
    else if str_length (trim username) <? 3 then
      set_prop newErrors "username" msg_username_min
    else newErrors in
  let newErrors :=
    if str_not password then
      set_prop newErrors "password" msg_password_required
    else if str_length password <? 4 then
      set_prop newErrors "password" msg_password_min
    else newErrors in
  (newErrors, no_keys newErrors).

End LoginScreen.

(** The screen that registers a user: [validate] of the sign-up form,
    which calls [register(username.trim(), password)] when it returns
    true. *)
Module UserRegisterScreen.

(** The class [[a-zA-Z0-9_]]. *)
Definition is_word_unit (c : code_unit) : bool :=
  ((97 <=? c) && (c <=? 122) || (65 <=? c) && (c <=? 90)
   || (48 <=? c) && (c <=? 57) || (c =? 95))%N.

(** [/^[a-zA-Z0-9_]+$/] *)
Definition re_word : regex := Plus (Class is_word_unit).

Definition msg_username_max : jsstring :=
  lit "El usuario no puede exceder 50 caracteres".
Definition msg_username_chars : jsstring :=
  lit "Solo se permiten letras, n" ++ [250%N] ++ lit "meros y guion bajo".
Definition msg_password_max : jsstring :=
  lit "La contrase" ++ [241%N] ++ lit "a no puede exceder 100 caracteres".
Definition msg_confirm_required : jsstring :=
  lit "Confirma tu contrase" ++ [241%N] ++ lit "a".
Definition msg_confirm_mismatch : jsstring :=
  lit "Las contrase" ++ [241%N] ++ lit "as no coinciden".

Definition validate (username password confirmPassword : jsstring)
    : object * bool :=
  let newErrors : object := [] in
  let newErrors :=
    if str_not (trim username) then
      set_prop newErrors "username" LoginScreen.msg_username_required
    else if str_length (trim username) <? 3 then
      set_prop newErrors "username" LoginScreen.msg_username_min
    else if str_length (trim username) >? 50 then
      set_prop newErrors "username" msg_username_max
    else if negb (test_anchored re_word (trim username)) then
      set_prop newErrors "username" msg_username_chars
    else newErrors in
  let newErrors :=
    if str_not password then
      set_prop newErrors "password" LoginScreen.msg_password_required
    else if str_length password <? 4 then
      set_prop newErrors "password" LoginScreen.msg_password_min
    else if str_length password >? 100 then
      set_prop newErrors "password" msg_password_max
    else newErrors in
  let newErrors :=
    if str_not confirmPassword then
      set_prop newErrors "confirmPassword" msg_confirm_required
    else if str_strict_neq password confirmPassword then
      set_prop newErrors "confirmPassword" msg_confirm_mismatch
    else newErrors in
  (newErrors, no_keys newErrors).

End UserRegisterScreen.

(** *** The record list of the records screen *)

(** [ClientRecord]; the identifier is the integer row id. *)
Record ClientRecord : Type := {
  id : Z;
  ruc : jsstring;
  clientName : jsstring;
  createdAt : jsstring;
  updatedAt : jsstring
}.


(** The update [handleSaveEdit] applies once the row is saved:
    [prev.map((r) => (r.id === updatedRecord.id ? updatedRecord : r))]. *)
Definition handleSaveEdit_update (updatedRecord : ClientRecord)
    (prev : list ClientRecord) : list ClientRecord :=
  map (fun r => if id r =? id updatedRecord then updatedRecord else r) prev.

(** *** Vocabulary for the error-detection properties *)

(** [s] with the code unit at index [i] replaced by [c]. *)
Definition replace_at (i : nat) (c : code_unit) (s : jsstring) : jsstring :=
  firstn i s ++ c :: skipn (S i) s.

(** [s] with the code units at indices [i] and [i + 1] exchanged. *)
Definition swap_at (i : nat) (s : jsstring) : jsstring :=
  match skipn i s with
  | a :: b :: rest => firstn i s ++ b :: a :: rest
  | _ => s
  end.

(** Every code unit of [s] is white space. *)
Definition all_white_space (s : jsstring) : bool := forallb is_white_space s.

(* ===================================================================== *)
(** ** Strings: trimming and prefixes *)
(* ===================================================================== *)

Section Trim.

Lemma trimStart_idempotent (s : jsstring) : trimStart (trimStart s) = trimStart s.
Proof.
  induction s as [|c s IH]; simpl; [reflexivity|].
  destruct (is_white_space c) eqn:E; [exact IH|].
  simpl. rewrite E. reflexivity.
Qed.

Lemma trimStart_front_clean (s : jsstring) : front_clean (trimStart s).
Proof.
  induction s as [|c s IH]; simpl; [exact I|].
  destruct (is_white_space c) eqn:E; [exact IH|]. exact E.
Qed.

Lemma trimStart_fixed (s : jsstring) : front_clean s -> trimStart s = s.
Proof.
  destruct s as [|c s]; simpl; [reflexivity|]. intros ->. reflexivity.
Qed.

Lemma trimStart_snoc (s : jsstring) (c : code_unit) :
  is_white_space c = false -> trimStart (s ++ [c]) = trimStart s ++ [c].
Proof.
  intros Hc. induction s as [|x s IH]; simpl.
  - rewrite Hc. reflexivity.
  - destruct (is_white_space x); [exact IH | reflexivity].
Qed.

Lemma trimEnd_front_clean (s : jsstring) : front_clean s -> front_clean (trimEnd s).
Proof.
  destruct s as [|c s]; [intros _; exact I|]. simpl. intros Hc.
  unfold trimEnd. simpl. rewrite (trimStart_snoc _ _ Hc).
  rewrite rev_app_distr. simpl. exact Hc.
Qed.

Lemma trimEnd_idempotent (s : jsstring) : trimEnd (trimEnd s) = trimEnd s.
Proof.
  unfold trimEnd. rewrite rev_involutive, trimStart_idempotent. reflexivity.
Qed.

Lemma trim_idempotent (s : jsstring) : trim (trim s) = trim s.
Proof.
  unfold trim.
  rewrite (trimStart_fixed (trimEnd (trimStart s))).
  - apply trimEnd_idempotent.
  - apply trimEnd_front_clean, trimStart_front_clean.
Qed.

Lemma digit_not_white_space (c : code_unit) :
  is_digit c = true -> is_white_space c = false.
Proof.
  unfold is_digit, is_white_space. intros H.
  apply andb_true_iff in H. destruct H as [H1 H2].
  apply N.leb_le in H1. apply N.leb_le in H2.
  repeat match goal with
  | |- context [(?a <=? ?b)%N] => destruct (N.leb_spec a b); try lia
  | |- context [(?a =? ?b)%N] => destruct (N.eqb_spec a b); try lia
  end; reflexivity.
Qed.

(** A string of digits has nothing to trim. *)
Lemma trim_digits (s : jsstring) : forallb is_digit s = true -> trim s = s.
Proof.
  intros H. unfold trim.
  assert (Hs : trimStart s = s).
  { apply trimStart_fixed. destruct s as [|c s]; simpl in *; [exact I|].
    apply andb_true_iff in H. apply digit_not_white_space, H. }
  rewrite Hs. unfold trimEnd.
  rewrite trimStart_fixed; [apply rev_involutive|].
  assert (Hr : forallb is_digit (rev s) = true).
  { rewrite forallb_forall in *. intros x Hx. apply H, in_rev, Hx. }
  destruct (rev s) as [|c r]; simpl in *; [exact I|].
  apply andb_true_iff in Hr. apply digit_not_white_space, Hr.
Qed.

Lemma str_eqb_eq (a b : jsstring) : str_eqb a b = true <-> a = b.
Proof.
  revert b. induction a as [|x a IH]; intros [|y b]; simpl;
    try (split; [discriminate | discriminate]); [tauto|].
  rewrite andb_true_iff, N.eqb_eq, IH. split.
  - intros [-> ->]. reflexivity.
  - intros E. injection E as -> ->. tauto.
Qed.

(** The boolean prefix test says that the first two code units are one
    of the accepted prefixes. *)
Lemma has_accepted_prefix_In (t : jsstring) :
  has_accepted_prefix t = true <-> In (firstn 2 t) accepted_prefixes.
Proof.
  unfold has_accepted_prefix. rewrite existsb_exists. split.
  - intros (p & Hin & E). apply str_eqb_eq in E. rewrite E. exact Hin.
  - intros Hin. exists (firstn 2 t). split; [exact Hin | apply str_eqb_eq; reflexivity].
Qed.

(** [startsWith] compares the prefix with as many leading code units. *)
Lemma startsWith_firstn (s p : jsstring) :
  startsWith s p = str_eqb (firstn (List.length p) s) p.
Proof.
  revert s. induction p as [|a p IH]; intros [|c s]; simpl; try reflexivity.
  rewrite IH, N.eqb_sym. reflexivity.
Qed.

End Trim.

(* ===================================================================== *)
(** ** Regular expressions: what the two patterns accept *)
(* ===================================================================== *)

Section Regex.

Lemma matches_Void (s : jsstring) : matches Void s = false.
Proof. induction s as [|c s IH]; simpl; auto. Qed.

Lemma matches_Alt (r1 r2 : regex) (s : jsstring) :
  matches (Alt r1 r2) s = matches r1 s || matches r2 s.
Proof.
  revert r1 r2. induction s as [|c s IH]; intros r1 r2; simpl; auto.
Qed.

Lemma matches_Cat_Void (r : regex) (s : jsstring) : matches (Cat Void r) s = false.
Proof. induction s as [|c s IH]; simpl; auto. Qed.

Lemma matches_Cat_Eps (r : regex) (s : jsstring) :
  matches (Cat Eps r) s = matches r s.
Proof.
  destruct s as [|c s]; simpl; [reflexivity|].
  rewrite matches_Alt, matches_Cat_Void. reflexivity.
Qed.

(** A class followed by [r] consumes one code unit of the class. *)
Lemma matches_Cat_Class (p : code_unit -> bool) (r : regex) (s : jsstring) :
  matches (Cat (Class p) r) s =
  match s with
  | [] => false
  | c :: rest => p c && matches r rest
  end.
Proof.
  destruct s as [|c s]; simpl; [reflexivity|].
  destruct (p c); simpl; [apply matches_Cat_Eps | apply matches_Cat_Void].
Qed.

Lemma matches_Repeat_Class (p : code_unit -> bool) (n : nat) (s : jsstring) :
  matches (Repeat n (Class p)) s = (List.length s =? n)%nat && forallb p s.
Proof.
  revert s. induction n as [|n IH]; intros s.
  - destruct s as [|c s]; simpl; [reflexivity | apply matches_Void].
  - simpl Repeat. rewrite matches_Cat_Class.
    destruct s as [|c s]; simpl; [reflexivity|].
    rewrite IH. destruct (p c), (List.length s =? n)%nat; reflexivity.
Qed.

Lemma matches_Star_Class (p : code_unit -> bool) (s : jsstring) :
  matches (Star (Class p)) s = forallb p s.
Proof.
  induction s as [|c s IH]; simpl; [reflexivity|].
  destruct (p c); simpl.
  - rewrite matches_Cat_Eps. exact IH.
  - apply matches_Cat_Void.
Qed.

(** [/^\d{11}$/] accepts exactly the strings of eleven digits. *)
Lemma test_eleven_digits (s : jsstring) :
  test_anchored re_eleven_digits s =
  (List.length s =? 11)%nat && forallb is_digit s.
Proof. apply matches_Repeat_Class. Qed.

(** [/^\d+$/] accepts exactly the non-empty strings of digits. *)
Lemma test_digits (s : jsstring) :
  test_anchored re_digits s =
  negb (List.length s =? 0)%nat && forallb is_digit s.
Proof.
  unfold test_anchored, re_digits, Plus. rewrite matches_Cat_Class.
  destruct s as [|c s]; simpl; [reflexivity|].
  rewrite matches_Star_Class. reflexivity.
Qed.

End Regex.

(* ===================================================================== *)
(** ** Digits and prefixes *)
(* ===================================================================== *)

Section Digits.

Lemma digit_value_range (c : code_unit) :
  is_digit c = true -> 0 <= digit_value c <= 9.
Proof.
  unfold is_digit, digit_value. intros H. apply andb_true_iff in H.
  destruct H as [H1 H2]. apply N.leb_le in H1. apply N.leb_le in H2. lia.
Qed.

Lemma Number_unit_digit (c : code_unit) :
  is_digit c = true -> Number_unit c = Num (digit_value c).
Proof. unfold Number_unit. intros ->. reflexivity. Qed.

Lemma split_map_Number_digits (t : jsstring) :
  forallb is_digit t = true ->
  split_map_Number t = map (fun c => Num (digit_value c)) t.
Proof.
  intros H. unfold split_map_Number. apply map_ext_in. intros c Hc.
  apply Number_unit_digit. rewrite forallb_forall in H. auto.
Qed.

Lemma some_startsWith_constants (t : jsstring) :
  some (fun prefix => startsWith t prefix) (RUC_VALID_PREFIXES constants)
  = has_accepted_prefix t.
Proof.
  unfold some, has_accepted_prefix.
  change (RUC_VALID_PREFIXES constants) with accepted_prefixes.
  unfold accepted_prefixes. cbn [existsb].
  rewrite !startsWith_firstn. reflexivity.
Qed.

End Digits.

(* ===================================================================== *)
(** ** Runs of [validateRUC] *)
(* ===================================================================== *)

Section Runs.

Local Abbreviation loop_body digits :=
  (fun (i : nat) (sum : number) =>
     d <- index digits i ;;
     factors <- get_RUC_FACTORS ;;
     f <- index factors i ;;
     ret (num_add sum (num_mul (to_number d) (to_number f)))).

Lemma bind_run {A B : Type} (c : M A) (k : A -> M B) (st : Constants) :
  bind c k st =
  {| value := value (k (value (c st)) (store (c st)));
     store := store (k (value (c st)) (store (c st)));
     reads := reads (c st) ++ reads (k (value (c st)) (store (c st))) |}.
Proof. reflexivity. Qed.

Lemma loop_body_run (digits : list number) (i : nat) (sum : number)
    (st : Constants) :
  loop_body digits i sum st =
  {| value := num_add sum (checksum_term digits (RUC_FACTORS st) i);
     store := st;
     reads := checksum_accesses digits (RUC_FACTORS st) i 1 |}.
Proof. reflexivity. Qed.

Lemma checksum_loop_run (digits : list number) (st : Constants) (count : nat) :
  forall (i : nat) (acc : number),
  for_iter count i (loop_body digits) acc st =
  {| value := checksum_sum digits (RUC_FACTORS st) i count acc;
     store := st;
     reads := checksum_accesses digits (RUC_FACTORS st) i count |}.
Proof.
  induction count as [|count IH]; intros i acc; [reflexivity|].
  cbn [for_iter]. rewrite bind_run, loop_body_run.
  cbn [value store reads]. rewrite IH. reflexivity.
Qed.

Lemma validateRUC_run (s : jsstring) (st : Constants) :
  validateRUC s st =
  if negb (test_anchored re_eleven_digits (trim s)) then ret false st
  else if negb (some (fun prefix => startsWith (trim s) prefix)
                  (RUC_VALID_PREFIXES st)) then ret false st
  else checksum_run (split_map_Number (trim s)) st.
Proof.
  unfold validateRUC.
  destruct (negb (test_anchored re_eleven_digits (trim s))); [reflexivity|].
  rewrite bind_run. cbn [get_RUC_VALID_PREFIXES value store reads app].
  destruct (negb (some _ (RUC_VALID_PREFIXES st))); [reflexivity|].
  rewrite bind_run. unfold for_range. cbn [Nat.sub].
  rewrite checksum_loop_run. cbn [value store reads].
  reflexivity.
Qed.

End Runs.

Section Checksum.

Lemma normalise_Num (x : Z) :
  normalise (Num x) = Num (if x =? 10 then 0 else if x =? 11 then 1 else x).
Proof.
  unfold normalise. cbn [num_strict_eq].
  destruct (x =? 10); [reflexivity|]. destruct (x =? 11); reflexivity.
Qed.

Ltac eleven t Hl :=
  do 11 (destruct t as [|? t]; [discriminate Hl|]);
  destruct t; [clear Hl | discriminate Hl].

Ltac digit_bounds Hd :=
  cbn [forallb] in Hd;
  repeat match type of Hd with
  | (_ && _) = true =>
      let H := fresh "Hc" in
      apply andb_true_iff in Hd; destruct Hd as [H Hd];
      apply digit_value_range in H
  end.

Lemma checksum_sum_constants (t : jsstring) :
  List.length t = 11%nat -> forallb is_digit t = true ->
  checksum_sum (map (fun c => Num (digit_value c)) t) (RUC_FACTORS constants)
    0 10 (Num 0)
  = Num (weighted_sum (map digit_value t))
  /\ 0 <= weighted_sum (map digit_value t).
Proof.
  intros Hl Hd. eleven t Hl. digit_bounds Hd.
  unfold checksum_sum, checksum_term, weighted_sum.
  cbn [seq fold_left fold_right map nth nth_error weights RUC_FACTORS constants
       to_number num_add num_mul num_lift2].
  split; [f_equal; ring | lia].
Qed.

Lemma checksum_run_constants (t : jsstring) :
  List.length t = 11%nat -> forallb is_digit t = true ->
  checksum_run (split_map_Number t) constants =
  {| value := check_digit_ok t;
     store := constants;
     reads := checksum_accesses (split_map_Number t) (RUC_FACTORS constants) 0 10
              ++ [ {| arr_length := 11; arr_index := 10 |} ] |}.
Proof.
  intros Hl Hd. unfold checksum_run.
  assert (Hlen : List.length (split_map_Number t) = 11%nat).
  { unfold split_map_Number. rewrite length_map. exact Hl. }
  rewrite Hlen. f_equal.
  rewrite (split_map_Number_digits t Hd).
  destruct (checksum_sum_constants t Hl Hd) as [-> Hpos].
  unfold check_digit_ok, expected_check_digit.
  set (S := weighted_sum (map digit_value t)) in *.
  cbn [num_rem]. change (11 =? 0) with false. cbv iota.
  cbn [num_sub num_lift2]. rewrite normalise_Num.
  rewrite Z.rem_mod_nonneg by lia.
  clear Hpos. subst S. eleven t Hl.
  cbn [map nth nth_error strict_eq num_strict_eq]. reflexivity.
Qed.

Lemma checksum_accesses_in_range (digits factors : list number) (count : nat) :
  (count <= List.length digits)%nat -> (count <= List.length factors)%nat ->
  Forall in_range (checksum_accesses digits factors 0 count).
Proof.
  intros Hd Hf. unfold checksum_accesses. apply Forall_flat_map.
  apply Forall_forall. intros k Hk. apply in_seq in Hk.
  repeat constructor; unfold in_range; cbn [arr_index arr_length]; lia.
Qed.

End Checksum.

(* ===================================================================== *)
(** ** The validators in the module state of [constants.ts] *)
(* ===================================================================== *)

Section OnConstants.

Lemma validateRUC_constants (s : jsstring) :
  validateRUC s constants =
  if (List.length (trim s) =? 11)%nat && forallb is_digit (trim s) then
    if has_accepted_prefix (trim s) then
      {| value := check_digit_ok (trim s);
         store := constants;
         reads := checksum_accesses (split_map_Number (trim s))
                    (RUC_FACTORS constants) 0 10
                  ++ [ {| arr_length := 11; arr_index := 10 |} ] |}
    else ret false constants
  else ret false constants.
Proof.
  rewrite validateRUC_run, test_eleven_digits, some_startsWith_constants.
  destruct (List.length (trim s) =? 11)%nat eqn:Hl; cbn [andb negb]; [|reflexivity].
  destruct (forallb is_digit (trim s)) eqn:Hd; cbn [andb negb]; [|reflexivity].
  destruct (has_accepted_prefix (trim s)); cbn [negb]; [|reflexivity].
  apply checksum_run_constants; [apply Nat.eqb_eq, Hl | exact Hd].
Qed.

Lemma validateRUC_value (s : jsstring) :
  value (validateRUC s constants) =
  (List.length (trim s) =? 11)%nat && forallb is_digit (trim s)
  && has_accepted_prefix (trim s) && check_digit_ok (trim s).
Proof.
  rewrite validateRUC_constants.
  destruct (List.length (trim s) =? 11)%nat, (forallb is_digit (trim s)),
    (has_accepted_prefix (trim s)); reflexivity.
Qed.

Lemma validateRUC_reads (s : jsstring) :
  Forall in_range (reads (validateRUC s constants)).
Proof.
  rewrite validateRUC_constants.
  destruct (List.length (trim s) =? 11)%nat eqn:Hl; cbn [andb];
    [|constructor].
  destruct (forallb is_digit (trim s)); [|constructor].
  destruct (has_accepted_prefix (trim s)); [|constructor].
  apply Nat.eqb_eq in Hl. cbn [reads]. apply Forall_app. split.
  - apply checksum_accesses_in_range.
    + unfold split_map_Number. rewrite length_map, Hl. lia.
    + cbn. lia.
  - constructor; [unfold in_range; cbn; lia | constructor].
Qed.

Lemma str_length_eqb (t : jsstring) (n : nat) :
  (str_length t =? Z.of_nat n) = (List.length t =? n)%nat.
Proof.
  unfold str_length.
  destruct (Z.eqb_spec (Z.of_nat (List.length t)) (Z.of_nat n)) as [E|E];
    destruct (Nat.eqb_spec (List.length t) n); try reflexivity; lia.
Qed.

Lemma existsb_non_digit (t : jsstring) :
  existsb (fun c => negb (is_digit c)) t = negb (forallb is_digit t).
Proof.
  induction t as [|c t IH]; cbn [existsb forallb]; [reflexivity|].
  rewrite IH. destruct (is_digit c); reflexivity.
Qed.

(** [getRUCError] calls [validateRUC] on the trimmed string; trimming
    again changes nothing. *)
Lemma getRUCError_constants (s : jsstring) :
  getRUCError s constants =
  {| value := option_map message (first_violation s);
     store := constants;
     reads := if (List.length (trim s) =? 11)%nat && forallb is_digit (trim s)
                 && has_accepted_prefix (trim s)
              then reads (validateRUC s constants) else [] |}.
Proof.
  unfold getRUCError, first_violation.
  change 0 with (Z.of_nat 0). change RUC_LENGTH with (Z.of_nat 11).
  rewrite !str_length_eqb, test_digits, existsb_non_digit.
  assert (H0 : (List.length (trim s) =? 0)%nat = true ->
               (List.length (trim s) =? 11)%nat = false).
  { intros H. apply Nat.eqb_eq in H. rewrite H. reflexivity. }
  destruct (List.length (trim s) =? 0)%nat eqn:Hz.
  { rewrite (H0 eq_refl). reflexivity. }
  clear H0. cbn [negb andb].
  destruct (forallb is_digit (trim s)) eqn:Hd; cbn [negb];
    [|rewrite andb_false_r; reflexivity].
  destruct (List.length (trim s) =? 11)%nat eqn:Hl; cbn [negb andb];
    [|reflexivity].
  rewrite bind_run. cbn [get_RUC_VALID_PREFIXES value store reads app].
  rewrite some_startsWith_constants.
  destruct (has_accepted_prefix (trim s)) eqn:Hp; cbn [negb]; [|reflexivity].
  rewrite bind_run.
  rewrite (validateRUC_constants s), (validateRUC_constants (trim s)).
  rewrite trim_idempotent, Hl, Hd, Hp. cbn [andb value store reads].
  destruct (check_digit_ok (trim s)); cbn [negb];
    cbn [ret value store reads option_map message]; rewrite app_nil_r;
    reflexivity.
Qed.

End OnConstants.

(* ===================================================================== *)
(** ** Properties of the RUC validator *)
(* ===================================================================== *)

Section RUC.

(** C1. For every string, [validateRUC] answers true exactly when the
    trimmed string is made of 11 ASCII digits, starts with one of the
    prefixes 10, 15, 17, 20, and its 11th digit is the expected check
    digit: 11 minus the weighted sum modulo 11, with 10 read as 0 and 11
    read as 1. *)
Theorem validateRUC_iff_ruc_valid (s : jsstring) :
  value (validateRUC s constants) = true <-> ruc_valid s.
Proof.
  rewrite validateRUC_value. unfold ruc_valid. cbv zeta.
  rewrite !andb_true_iff, Nat.eqb_eq. tauto.
Qed.

(** C3. [getRUCError] returns null exactly on the strings [validateRUC]
    accepts, and a message on every other one. *)
Theorem getRUCError_null_iff_valid (s : jsstring) :
  (value (getRUCError s constants) = None
   <-> value (validateRUC s constants) = true)
  /\ (value (getRUCError s constants) = None
      \/ exists msg, value (getRUCError s constants) = Some msg
                     /\ value (validateRUC s constants) = false).
Proof.
  rewrite getRUCError_constants, validateRUC_value. cbn [value].
  unfold first_violation. cbv zeta. rewrite existsb_non_digit.
  destruct (List.length (trim s) =? 0)%nat eqn:Hz.
  { apply Nat.eqb_eq in Hz. rewrite Hz. cbn.
    split; [split; discriminate | right; eexists; split; reflexivity]. }
  destruct (forallb is_digit (trim s)); cbn [negb andb option_map];
    [|rewrite andb_false_r;
      split; [split; discriminate | right; eexists; split; reflexivity]].
  destruct (List.length (trim s) =? 11)%nat; cbn [negb andb option_map];
    [|split; [split; discriminate | right; eexists; split; reflexivity]].
  destruct (has_accepted_prefix (trim s)); cbn [negb andb option_map];
    [|split; [split; discriminate | right; eexists; split; reflexivity]].
  destruct (check_digit_ok (trim s)); cbn [negb andb option_map].
  - split; [split; reflexivity | left; reflexivity].
  - split; [split; discriminate | right; eexists; split; reflexivity].
Qed.

(** C4. [getRUCError] reports the first rule violated, in the order
    required, digits only, exact length, prefix, check digit; the five
    messages are pairwise different; and an 11-character input with a
    letter gets the digits-only message, not the length message. *)
Theorem getRUCError_first_violation :
  (forall s : jsstring,
     value (getRUCError s constants) = option_map message (first_violation s))
  /\ (forall v w : Violation, message v = message w -> v = w)
  /\ value (getRUCError (lit "2012345678a") constants) = Some msg_digits_only
  /\ msg_digits_only <> msg_length.
Proof.
  split; [intros s; rewrite getRUCError_constants; reflexivity|].
  split; [|split; [vm_compute; reflexivity | vm_compute; discriminate]].
  intros v w. destruct v, w; try reflexivity; vm_compute; discriminate.
Qed.

(** C5. Both functions are total and raise nothing: every indexed read
    they perform, on [digits] or on [RUC_FACTORS], is in range, and
    [validateRUC] reads by index only once the trimmed input matched
    [^\d{11}$]. *)
Theorem validators_reads_in_range (s : jsstring) :
  Forall in_range (reads (validateRUC s constants))
  /\ Forall in_range (reads (getRUCError s constants))
  /\ (reads (validateRUC s constants) = []
      \/ test_anchored re_eleven_digits (trim s) = true).
Proof.
  split; [apply validateRUC_reads|]. split.
  - rewrite getRUCError_constants. cbn [reads].
    destruct (_ && _); [apply validateRUC_reads | constructor].
  - rewrite validateRUC_run.
    destruct (test_anchored re_eleven_digits (trim s));
      [right; reflexivity | left; reflexivity].
Qed.

(** C6. [validateRUC] accepts only strings that, once trimmed, have
    exactly 11 characters, all digits, and an accepted prefix; so a
    string of another trimmed length is rejected, and so is a string of
    11 digits with another prefix. *)
Theorem validateRUC_only_if (s : jsstring) :
  (value (validateRUC s constants) = true ->
     List.length (trim s) = 11%nat
     /\ forallb is_digit (trim s) = true
     /\ has_accepted_prefix (trim s) = true)
  /\ (List.length (trim s) <> 11%nat ->
        value (validateRUC s constants) = false)
  /\ (List.length s = 11%nat -> forallb is_digit s = true ->
      has_accepted_prefix s = false ->
        value (validateRUC s constants) = false).
Proof.
  split; [|split].
  - rewrite validateRUC_value, !andb_true_iff, Nat.eqb_eq. tauto.
  - intros H. rewrite validateRUC_value.
    apply Nat.eqb_neq in H. rewrite H. reflexivity.
  - intros _ Hd Hp. rewrite validateRUC_value, (trim_digits s Hd), Hp.
    rewrite andb_false_r. reflexivity.
Qed.

End RUC.

Lemma validateRUC_only_if_witness :
  (List.length (trim (lit "20123456786")) = 11%nat
   /\ forallb is_digit (trim (lit "20123456786")) = true
   /\ has_accepted_prefix (trim (lit "20123456786")) = true)
  /\ value (validateRUC (lit "2012345678") constants) = false
  /\ value (validateRUC (lit "30123456786") constants) = false.
Proof.
  split; [|split].
  - apply (proj1 (validateRUC_only_if (lit "20123456786"))). vm_compute. reflexivity.
  - apply (proj1 (proj2 (validateRUC_only_if (lit "2012345678")))).
    vm_compute. discriminate.
  - apply (proj2 (proj2 (validateRUC_only_if (lit "30123456786"))));
      vm_compute; reflexivity.
Defined.

(* ===================================================================== *)
(** ** Purity *)
(* ===================================================================== *)

Section Purity.

Lemma preserves_ret {A : Type} (a : A) : preserves_store (ret a).
Proof. intros st. reflexivity. Qed.

Lemma preserves_bind {A B : Type} (c : M A) (k : A -> M B) :
  preserves_store c -> (forall a, preserves_store (k a)) ->
  preserves_store (bind c k).
Proof.
  intros Hc Hk st. rewrite bind_run. cbn [store]. rewrite Hc. apply Hk.
Qed.

Lemma preserves_if {A : Type} (b : bool) (c1 c2 : M A) :
  preserves_store c1 -> preserves_store c2 ->
  preserves_store (if b then c1 else c2).
Proof. destruct b; auto. Qed.

Lemma preserves_index {A : Type} (a : list A) (i : nat) :
  preserves_store (index a i).
Proof. intros st. reflexivity. Qed.

Lemma preserves_get_RUC_VALID_PREFIXES : preserves_store get_RUC_VALID_PREFIXES.
Proof. intros st. reflexivity. Qed.

Lemma preserves_get_RUC_FACTORS : preserves_store get_RUC_FACTORS.
Proof. intros st. reflexivity. Qed.

Lemma preserves_for_iter {A : Type} (body : nat -> A -> M A) (count : nat) :
  (forall i acc, preserves_store (body i acc)) ->
  forall i acc, preserves_store (for_iter count i body acc).
Proof.
  intros Hbody. induction count as [|count IH]; intros i acc; cbn [for_iter].
  - apply preserves_ret.
  - apply preserves_bind; [apply Hbody | intros a; apply IH].
Qed.

Lemma preserves_for_range {A : Type} (body : nat -> A -> M A) (from to : nat)
    (acc : A) :
  (forall i a, preserves_store (body i a)) ->
  preserves_store (for_range from to body acc).
Proof. intros H. apply preserves_for_iter, H. Qed.

Create HintDb frame.
#[local] Hint Resolve preserves_ret preserves_index preserves_get_RUC_FACTORS
  preserves_get_RUC_VALID_PREFIXES : frame.

Ltac frame :=
  repeat first
    [ apply preserves_if
    | apply preserves_bind; [|intros ?]
    | apply preserves_for_range; intros ? ?
    | solve [auto with frame] ].

Lemma validateRUC_preserves (s : jsstring) : preserves_store (validateRUC s).
Proof. unfold validateRUC. cbv zeta. frame. Qed.

Lemma getRUCError_preserves (s : jsstring) : preserves_store (getRUCError s).
Proof.
  unfold getRUCError. cbv zeta.
  repeat first
    [ apply validateRUC_preserves
    | apply preserves_if
    | apply preserves_bind; [|intros ?]
    | solve [auto with frame] ].
Qed.

(** C7. [validateRUC] is deterministic and pure: in whatever state the
    module's arrays are, a call leaves them as they were, so a second
    call on the same string runs in the same state and returns the same
    answer. *)
Theorem validateRUC_deterministic_pure (s : jsstring) (st : Constants) :
  store (validateRUC s st) = st
  /\ value (validateRUC s (store (validateRUC s st))) = value (validateRUC s st)
  /\ store (validateRUC s (store (validateRUC s st))) = st.
Proof.
  pose proof (validateRUC_preserves s st) as H.
  rewrite H. auto.
Qed.

End Purity.

(* ===================================================================== *)
(** ** Trimming *)
(* ===================================================================== *)

Section TrimInvariance.

Lemma trimStart_length (s : jsstring) :
  (List.length (trimStart s) <= List.length s)%nat
  /\ (List.length (trimStart s) = List.length s -> trimStart s = s).
Proof.
  induction s as [|c s [IH1 IH2]]; cbn [trimStart]; [auto|].
  destruct (is_white_space c); cbn [List.length]; [|auto].
  split; [lia | intros E; lia].
Qed.

Lemma trimEnd_length (s : jsstring) :
  (List.length (trimEnd s) <= List.length s)%nat
  /\ (List.length (trimEnd s) = List.length s -> trimEnd s = s).
Proof.
  unfold trimEnd. rewrite length_rev.
  destruct (trimStart_length (rev s)) as [H1 H2]. rewrite length_rev in *.
  split; [exact H1|]. intros E. rewrite (H2 E). apply rev_involutive.
Qed.

(** Trimming never lengthens, and a string it does not shorten is
    unchanged. *)
Lemma trim_same_length (s : jsstring) :
  List.length (trim s) = List.length s -> trim s = s.
Proof.
  unfold trim. intros E.
  destruct (trimStart_length s) as [H1 H2].
  destruct (trimEnd_length (trimStart s)) as [H3 H4].
  assert (E1 : List.length (trimStart s) = List.length s) by lia.
  rewrite (H2 E1) in *. apply H4. exact E.
Qed.

(** C9. Both RUC functions give the same run on a string and on its
    trimmed form, in every module state; in particular the same answer. *)
Theorem validators_trim_invariant (s : jsstring) (st : Constants) :
  validateRUC s st = validateRUC (trim s) st
  /\ getRUCError s st = getRUCError (trim s) st.
Proof.
  unfold validateRUC, getRUCError. rewrite trim_idempotent.
  split; reflexivity.
Qed.

End TrimInvariance.

(* ===================================================================== *)
(** ** Length validators *)
(* ===================================================================== *)

Section Lengths.

(** C8. [validateUsername] accepts the strings whose trimmed length is
    between 3 and 50, [validateClientName] those between 2 and 200. *)
Theorem validateUsername_ClientName_bounds (s : jsstring) :
  (validateUsername s = true <-> 3 <= str_length (trim s) <= 50)
  /\ (validateClientName s = true <-> 2 <= str_length (trim s) <= 200).
Proof.
  unfold validateUsername, validateClientName. cbv zeta.
  rewrite !andb_true_iff, !Z.leb_le. tauto.
Qed.

(** C2, as the code has it. [validatePassword] accepts exactly the
    strings of at least 4 code units, white space included; it neither
    trims nor bounds the length from above. *)
Theorem validatePassword_iff_length (s : jsstring) :
  validatePassword s = true <-> 4 <= str_length s.
Proof. unfold validatePassword. apply Z.leb_le. Qed.

(** C2 as stated fails twice: four spaces are accepted although nothing
    is left after trimming, and 101 letters are accepted although that is
    more than 100. *)
Lemma validatePassword_not_trimmed_not_bounded :
  ~ (validatePassword (lit "    ") = true
     <-> 4 <= str_length (trim (lit "    ")) <= 100)
  /\ ~ (validatePassword (repeat 97%N 101) = true
        <-> 4 <= str_length (trim (repeat 97%N 101)) <= 100).
Proof.
  split; intros [H _]; specialize (H eq_refl).
  - assert (E : str_length (trim (lit "    ")) = 0) by reflexivity.
    rewrite E in H. lia.
  - assert (E : str_length (trim (repeat 97%N 101)) = 101) by reflexivity.
    rewrite E in H. lia.
Qed.

End Lengths.

(* ===================================================================== *)
(** ** The check digit *)
(* ===================================================================== *)

Section CheckDigit.

Lemma expected_check_digit_range (d : list Z) :
  0 <= expected_check_digit d <= 9.
Proof.
  unfold expected_check_digit. cbv zeta.
  pose proof (Z.mod_pos_bound (weighted_sum d) 11 ltac:(lia)) as Hm.
  destruct (Z.eqb_spec (11 - weighted_sum d mod 11) 10); [lia|].
  destruct (Z.eqb_spec (11 - weighted_sum d mod 11) 11); lia.
Qed.

Ltac ten body Hl :=
  do 10 (destruct body as [|? body]; [discriminate Hl|]);
  destruct body; [clear Hl | discriminate Hl].

(** The expected digit reads the first ten digits only. *)
Lemma expected_check_digit_snoc (body : jsstring) (d : code_unit) :
  List.length body = 10%nat ->
  expected_check_digit (map digit_value (body ++ [d]))
  = expected_check_digit (map digit_value body)
  /\ nth 10 (map digit_value (body ++ [d])) 0 = digit_value d
  /\ has_accepted_prefix (body ++ [d]) = has_accepted_prefix body.
Proof. intros Hl. ten body Hl. repeat split; reflexivity. Qed.

(** C10. For ten digits with an accepted prefix the expected check digit
    is a single digit 0..9 computed from those ten digits alone, and
    exactly one code unit, the character of that digit, completes them
    to a string [validateRUC] accepts. *)
Theorem check_digit_unique (body : jsstring) :
  List.length body = 10%nat ->
  forallb is_digit body = true ->
  has_accepted_prefix body = true ->
  0 <= expected_check_digit (map digit_value body) <= 9
  /\ (forall d : code_unit,
        value (validateRUC (body ++ [d]) constants) = true
        <-> Z.of_N d = 48 + expected_check_digit (map digit_value body))
  /\ exists! d : code_unit,
       value (validateRUC (body ++ [d]) constants) = true.
Proof.
  intros Hl Hd Hp.
  pose proof (expected_check_digit_range (map digit_value body)) as He.
  assert (Hiff : forall d : code_unit,
             value (validateRUC (body ++ [d]) constants) = true
             <-> Z.of_N d = 48 + expected_check_digit (map digit_value body)).
  { intros d. rewrite validateRUC_value.
    assert (Hlen : List.length (body ++ [d]) = 11%nat).
    { rewrite length_app, Hl. reflexivity. }
    destruct (expected_check_digit_snoc body d Hl) as (Ee & En & Ep).
    destruct (is_digit d) eqn:Hdd.
    - assert (Hall : forallb is_digit (body ++ [d]) = true).
      { rewrite forallb_app, Hd. cbn [forallb]. rewrite Hdd. reflexivity. }
      rewrite (trim_digits _ Hall), Hall, Hlen, Ep, Hp.
      cbn [Nat.eqb andb]. unfold check_digit_ok. cbv zeta.
      rewrite Ee, En, Z.eqb_eq. unfold digit_value. lia.
    - split.
      + intros H. rewrite !andb_true_iff, Nat.eqb_eq in H.
        destruct H as [[[H1 H2] _] _].
        rewrite (trim_same_length (body ++ [d])) in H2 by lia.
        rewrite forallb_app in H2. cbn [forallb] in H2.
        rewrite Hdd, andb_false_r in H2. discriminate.
      + intros H. exfalso. unfold is_digit in Hdd.
        apply andb_false_iff in Hdd.
        destruct Hdd as [Hf|Hf]; apply N.leb_gt in Hf; lia. }
  split; [exact He|]. split; [exact Hiff|].
  exists (Z.to_N (48 + expected_check_digit (map digit_value body))). split.
  - apply Hiff. lia.
  - intros d' H. apply Hiff in H. lia.
Qed.

Lemma check_digit_unique_witness :
  0 <= expected_check_digit (map digit_value (lit "2012345678")) <= 9
  /\ (forall d : code_unit,
        value (validateRUC (lit "2012345678" ++ [d]) constants) = true
        <-> Z.of_N d = 48 + expected_check_digit
                              (map digit_value (lit "2012345678")))
  /\ exists! d : code_unit,
       value (validateRUC (lit "2012345678" ++ [d]) constants) = true.
Proof.
  apply (check_digit_unique (lit "2012345678")); reflexivity.
Defined.

End CheckDigit.

(* ===================================================================== *)
(** ** The worked examples of the specification *)
(* ===================================================================== *)

Section Examples.

Example weighted_sum_20123456786 :
  weighted_sum (map digit_value (lit "20123456786")) = 148
  /\ expected_check_digit (map digit_value (lit "20123456786")) = 6.
Proof. split; reflexivity. Qed.

Example validateRUC_20123456786 :
  value (validateRUC (lit "20123456786") constants) = true
  /\ value (validateRUC (lit "  20123456786 ") constants) = true
  /\ value (validateRUC (lit "20123456780") constants) = false.
Proof. repeat split; reflexivity. Qed.

Example getRUCError_boundaries :
  value (getRUCError [] constants) = Some msg_required
  /\ value (validateRUC [] constants) = false
  /\ value (getRUCError (lit "30123456786") constants) = Some msg_prefix
  /\ value (getRUCError (lit "2012345678") constants) = Some msg_length
  /\ value (getRUCError (lit "20123456780") constants) = Some msg_not_valid
  /\ value (getRUCError (lit "20123456786") constants) = None.
Proof. repeat split; reflexivity. Qed.

(** A non-breaking space (U+00A0) and a line separator (U+2028) are
    trimmed like an ASCII space. *)
Example trim_unicode_white_space :
  trim ([160%N; 8232%N] ++ lit "20123456786" ++ [12288%N])
  = lit "20123456786".
Proof. reflexivity. Qed.

Example validatePassword_examples :
  validatePassword (lit "abc") = false
  /\ validatePassword (lit " ab ") = true
  /\ validateUsername (lit " ab ") = false.
Proof. repeat split; reflexivity. Qed.

End Examples.

(* ===================================================================== *)
(** ** Client names and error messages *)
(* ===================================================================== *)

Section ClientName.

Lemma first_violation_valid (s : jsstring) :
  first_violation s = None <-> value (validateRUC s constants) = true.
Proof.
  rewrite validateRUC_value. unfold first_violation. cbv zeta.
  rewrite existsb_non_digit.
  destruct (List.length (trim s) =? 0)%nat eqn:Hz.
  { apply Nat.eqb_eq in Hz. rewrite Hz. cbn. split; discriminate. }
  destruct (forallb is_digit (trim s)); cbn [negb andb];
    [|rewrite andb_false_r; split; discriminate].
  destruct (List.length (trim s) =? 11)%nat; cbn [negb andb];
    [|split; discriminate].
  destruct (has_accepted_prefix (trim s)); cbn [negb andb];
    [|split; discriminate].
  destruct (check_digit_ok (trim s)); cbn [negb]; split;
    try discriminate; reflexivity.
Qed.

Lemma truthy_message (v : Violation) : truthy (Some (message v)) = true.
Proof. destruct v; reflexivity. Qed.

Lemma truthy_getRUCError (s : jsstring) :
  truthy (value (getRUCError s constants))
  = negb (value (validateRUC s constants)).
Proof.
  rewrite getRUCError_constants. cbn [value].
  destruct (first_violation s) as [v|] eqn:E; cbn [option_map].
  - rewrite truthy_message.
    destruct (value (validateRUC s constants)) eqn:Hv; [|reflexivity].
    apply first_violation_valid in Hv. congruence.
  - apply first_violation_valid in E. rewrite E. reflexivity.
Qed.

Lemma getClientNameError_cases (s : jsstring) :
  (getClientNameError s = None /\ validateClientName s = true)
  \/ (exists c m, getClientNameError s = Some (c :: m)
                  /\ validateClientName s = false).
Proof.
  unfold getClientNameError, validateClientName. cbv zeta.
  destruct (Z.eqb_spec (str_length (trim s)) 0) as [E0|E0].
  { right. do 2 eexists. split; [reflexivity|].
    rewrite E0. reflexivity. }
  destruct (Z.ltb_spec (str_length (trim s)) 2) as [E2|E2].
  { right. do 2 eexists. split; [reflexivity|].
    destruct (Z.leb_spec 2 (str_length (trim s))); [lia | reflexivity]. }
  rewrite Z.gtb_ltb.
  destruct (Z.ltb_spec 200 (str_length (trim s))) as [E3|E3].
  { right. do 2 eexists. split; [reflexivity|].
    destruct (Z.leb_spec (str_length (trim s)) 200); [lia|].
    apply andb_false_r. }
  left. split; [reflexivity|].
  apply andb_true_iff. split; apply Z.leb_le; lia.
Qed.

Lemma truthy_getClientNameError (s : jsstring) :
  truthy (getClientNameError s) = negb (validateClientName s).
Proof.
  destruct (getClientNameError_cases s) as [[-> ->] | (c & m & -> & ->)];
    reflexivity.
Qed.

(** X1. [getClientNameError] returns null exactly on the names
    [validateClientName] accepts. *)
Theorem getClientNameError_null_iff_valid (s : jsstring) :
  getClientNameError s = None <-> validateClientName s = true.
Proof.
  destruct (getClientNameError_cases s) as [[-> ->] | (c & m & -> & ->)];
    split; (reflexivity || discriminate).
Qed.

(** X2. Neither error function ever returns the empty string, so the
    truthiness test [if (error)] that the forms apply fires exactly on
    the inputs the boolean validators reject. *)
Theorem error_tests_fire_iff_invalid (ruc name : jsstring) :
  truthy (value (getRUCError ruc constants))
    = negb (value (validateRUC ruc constants))
  /\ truthy (getClientNameError name) = negb (validateClientName name).
Proof. split; [apply truthy_getRUCError | apply truthy_getClientNameError]. Qed.

End ClientName.

(* ===================================================================== *)
(** ** White space around the input *)
(* ===================================================================== *)

Section Padding.

Lemma trimStart_all_white_space (s : jsstring) :
  all_white_space s = true -> trimStart s = [].
Proof.
  unfold all_white_space. induction s as [|c s IH]; cbn [forallb trimStart];
    [reflexivity|].
  intros H. apply andb_true_iff in H. destruct H as [-> H]. exact (IH H).
Qed.

Lemma trimStart_app_white_space (pre x : jsstring) :
  all_white_space pre = true -> trimStart (pre ++ x) = trimStart x.
Proof.
  unfold all_white_space.
  induction pre as [|c pre IH]; cbn [forallb app trimStart]; [reflexivity|].
  intros H. apply andb_true_iff in H. destruct H as [-> H]. exact (IH H).
Qed.

Lemma trimStart_app_other (a b : jsstring) :
  all_white_space a = false -> trimStart (a ++ b) = trimStart a ++ b.
Proof.
  unfold all_white_space.
  induction a as [|c a IH]; cbn [forallb app trimStart]; [discriminate|].
  destruct (is_white_space c); cbn [andb]; [exact IH | reflexivity].
Qed.

Lemma all_white_space_rev (s : jsstring) :
  all_white_space (rev s) = all_white_space s.
Proof.
  unfold all_white_space. induction s as [|c s IH]; [reflexivity|].
  cbn [rev forallb]. rewrite forallb_app, IH. cbn [forallb].
  rewrite andb_true_r. apply andb_comm.
Qed.

Lemma trimEnd_app_white_space (x post : jsstring) :
  all_white_space post = true -> trimEnd (x ++ post) = trimEnd x.
Proof.
  intros H. unfold trimEnd. rewrite rev_app_distr.
  rewrite trimStart_app_white_space; [reflexivity|].
  rewrite all_white_space_rev. exact H.
Qed.

(** White space put around a string is trimmed away with the string's
    own. *)
Lemma trim_padded (pre s post : jsstring) :
  all_white_space pre = true -> all_white_space post = true ->
  trim (pre ++ s ++ post) = trim s.
Proof.
  intros Hpre Hpost. unfold trim.
  rewrite (trimStart_app_white_space pre _ Hpre).
  destruct (all_white_space s) eqn:Hs.
  - rewrite (trimStart_app_white_space s _ Hs).
    rewrite (trimStart_all_white_space post Hpost).
    rewrite (trimStart_all_white_space s Hs). reflexivity.
  - rewrite (trimStart_app_other s post Hs).
    apply trimEnd_app_white_space, Hpost.
Qed.

(** X3. White space of any kind and amount before and after the input
    changes nothing: the RUC functions have the same run, and the name
    and username validators the same result, as on the bare input. *)
Theorem validators_ignore_padding (pre s post : jsstring) (st : Constants) :
  all_white_space pre = true -> all_white_space post = true ->
  validateRUC (pre ++ s ++ post) st = validateRUC s st
  /\ getRUCError (pre ++ s ++ post) st = getRUCError s st
  /\ validateUsername (pre ++ s ++ post) = validateUsername s
  /\ validateClientName (pre ++ s ++ post) = validateClientName s
  /\ getClientNameError (pre ++ s ++ post) = getClientNameError s.
Proof.
  intros Hpre Hpost.
  unfold validateRUC, getRUCError, validateUsername, validateClientName,
    getClientNameError.
  rewrite (trim_padded pre s post Hpre Hpost). repeat split; reflexivity.
Qed.

Lemma validators_ignore_padding_witness :
  validateRUC ([32%N; 9%N] ++ lit "20123456786" ++ [10%N; 160%N]) constants
    = validateRUC (lit "20123456786") constants
  /\ getRUCError ([32%N; 9%N] ++ lit "20123456786" ++ [10%N; 160%N]) constants
     = getRUCError (lit "20123456786") constants
  /\ validateUsername ([32%N; 9%N] ++ lit "20123456786" ++ [10%N; 160%N])
     = validateUsername (lit "20123456786")
  /\ validateClientName ([32%N; 9%N] ++ lit "20123456786" ++ [10%N; 160%N])
     = validateClientName (lit "20123456786")
  /\ getClientNameError ([32%N; 9%N] ++ lit "20123456786" ++ [10%N; 160%N])
     = getClientNameError (lit "20123456786").
Proof.
  apply (validators_ignore_padding [32%N; 9%N] (lit "20123456786")
           [10%N; 160%N] constants); reflexivity.
Defined.

End Padding.

(* ===================================================================== *)
(** ** What the check digit detects *)
(* ===================================================================== *)

Section ErrorDetection.

Ltac split_eleven s Hl :=
  do 11 (destruct s as [|? s]; [discriminate Hl|]);
  destruct s; [clear Hl | discriminate Hl].

Ltac bound_digits Hd :=
  cbn [forallb] in Hd;
  repeat match type of Hd with
  | (_ && _) = true =>
      let H := fresh "Hb" in
      apply andb_true_iff in Hd; destruct Hd as [H Hd];
      apply digit_value_range in H
  end.

(** A string of 11 code units that [validateRUC] accepts is made of
    digits, untouched by trimming, and passes the check. *)
Lemma valid_eleven (s : jsstring) :
  List.length s = 11%nat ->
  value (validateRUC s constants) = true ->
  forallb is_digit s = true /\ check_digit_ok s = true.
Proof.
  intros Hl Hv. rewrite validateRUC_value in Hv.
  rewrite !andb_true_iff, Nat.eqb_eq in Hv.
  destruct Hv as [[[H1 H2] _] H4].
  rewrite (trim_same_length s) in * by lia. auto.
Qed.

(** Apart from the digit 1, which stands for the remainders 0 and 10,
    the expected digit determines the remainder. *)
Lemma expected_check_digit_remainder (d d' : list Z) :
  expected_check_digit d = expected_check_digit d' ->
  expected_check_digit d <> 1 ->
  weighted_sum d mod 11 = weighted_sum d' mod 11.
Proof.
  unfold expected_check_digit. cbv zeta.
  pose proof (Z.mod_pos_bound (weighted_sum d) 11 ltac:(lia)).
  pose proof (Z.mod_pos_bound (weighted_sum d') 11 ltac:(lia)).
  destruct (Z.eqb_spec (11 - weighted_sum d mod 11) 10);
    destruct (Z.eqb_spec (11 - weighted_sum d mod 11) 11);
    destruct (Z.eqb_spec (11 - weighted_sum d' mod 11) 10);
    destruct (Z.eqb_spec (11 - weighted_sum d' mod 11) 11); lia.
Qed.

Lemma same_remainder (a b : Z) :
  a mod 11 = b mod 11 -> exists k : Z, a - b = 11 * k.
Proof.
  intros H. exists (a / 11 - b / 11).
  pose proof (Z.div_mod a 11 ltac:(lia)).
  pose proof (Z.div_mod b 11 ltac:(lia)). lia.
Qed.

(** Two accepted 11-digit strings with the same check digit, other than
    1, have weighted sums that differ by a multiple of 11. *)
Lemma same_check_digit (s s' : jsstring) :
  List.length s = 11%nat -> List.length s' = 11%nat ->
  check_digit_ok s = true -> check_digit_ok s' = true ->
  nth 10 s 0%N = nth 10 s' 0%N -> nth 10 s 0%N <> 49%N ->
  exists k : Z,
    weighted_sum (map digit_value s) - weighted_sum (map digit_value s')
    = 11 * k.
Proof.
  intros Hl Hl' Hk Hk' Hsame Hone.
  apply same_remainder, expected_check_digit_remainder.
  - unfold check_digit_ok in Hk, Hk'. cbv zeta in Hk, Hk'.
    apply Z.eqb_eq in Hk, Hk'. rewrite <- Hk, <- Hk'.
    split_eleven s Hl. split_eleven s' Hl'. cbn [map nth] in *.
    rewrite Hsame. reflexivity.
  - unfold check_digit_ok in Hk. cbv zeta in Hk. apply Z.eqb_eq in Hk.
    rewrite <- Hk. split_eleven s Hl. cbn [map nth] in *.
    unfold digit_value. lia.
Qed.

(** X4. In an accepted RUC whose check digit is not 1, replacing any one
    of the first ten digits by anything else gives a rejected string. *)
Theorem single_digit_error_detected (s : jsstring) (i : nat) (c : code_unit) :
  List.length s = 11%nat ->
  value (validateRUC s constants) = true ->
  nth 10 s 0%N <> 49%N ->
  (i < 10)%nat ->
  c <> nth i s 0%N ->
  value (validateRUC (replace_at i c s) constants) = false.
Proof.
  intros Hl Hv Hone Hi Hc.
  destruct (valid_eleven s Hl Hv) as [Hd Hk].
  destruct (value (validateRUC (replace_at i c s) constants)) eqn:E;
    [exfalso | reflexivity].
  assert (Hl' : List.length (replace_at i c s) = 11%nat).
  { split_eleven s Hl.
    do 10 (destruct i as [|i]; [reflexivity|]). lia. }
  destruct (valid_eleven _ Hl' E) as [Hd' Hk'].
  assert (Hlast : nth 10 s 0%N = nth 10 (replace_at i c s) 0%N).
  { split_eleven s Hl.
    do 10 (destruct i as [|i]; [reflexivity|]). lia. }
  destruct (same_check_digit s _ Hl Hl' Hk Hk' Hlast Hone) as [k Hsum].
  clear Hv E Hk Hk' Hl' Hlast Hone.
  split_eleven s Hl.
  do 10 (destruct i as [|i];
    [ cbn [replace_at firstn skipn app nth] in *;
      bound_digits Hd; bound_digits Hd';
      unfold weighted_sum in Hsum;
      cbn [fold_right map seq nth weights] in Hsum;
      unfold digit_value in *; lia |]).
  lia.
Qed.

Lemma single_digit_error_detected_witness :
  value (validateRUC (replace_at 3 57%N (lit "20123456786")) constants) = false.
Proof.
  apply (single_digit_error_detected (lit "20123456786") 3 57%N);
    [reflexivity | reflexivity | discriminate | lia | discriminate].
Defined.

(** X5. In an accepted RUC whose check digit is not 1, exchanging two
    neighbouring digits among the first ten, when they differ, gives a
    rejected string. *)
Theorem adjacent_transposition_detected (s : jsstring) (i : nat) :
  List.length s = 11%nat ->
  value (validateRUC s constants) = true ->
  nth 10 s 0%N <> 49%N ->
  (i < 9)%nat ->
  nth i s 0%N <> nth (S i) s 0%N ->
  value (validateRUC (swap_at i s) constants) = false.
Proof.
  intros Hl Hv Hone Hi Hc.
  destruct (valid_eleven s Hl Hv) as [Hd Hk].
  destruct (value (validateRUC (swap_at i s) constants)) eqn:E;
    [exfalso | reflexivity].
  assert (Hl' : List.length (swap_at i s) = 11%nat).
  { split_eleven s Hl.
    do 9 (destruct i as [|i]; [reflexivity|]). lia. }
  destruct (valid_eleven _ Hl' E) as [Hd' Hk'].
  assert (Hlast : nth 10 s 0%N = nth 10 (swap_at i s) 0%N).
  { split_eleven s Hl.
    do 9 (destruct i as [|i]; [reflexivity|]). lia. }
  destruct (same_check_digit s _ Hl Hl' Hk Hk' Hlast Hone) as [k Hsum].
  clear Hv E Hk Hk' Hl' Hlast Hone Hd'.
  split_eleven s Hl.
  do 9 (destruct i as [|i];
    [ cbn [swap_at firstn skipn app nth] in *;
      bound_digits Hd;
      unfold weighted_sum in Hsum;
      cbn [fold_right map seq nth weights] in Hsum;
      unfold digit_value in *; lia |]).
  lia.
Qed.

Lemma adjacent_transposition_detected_witness :
  value (validateRUC (swap_at 4 (lit "20123456786")) constants) = false.
Proof.
  apply (adjacent_transposition_detected (lit "20123456786") 4);
    [reflexivity | reflexivity | discriminate | lia | discriminate].
Defined.

(** The exception is real: with check digit 1 a changed digit can pass,
    because the remainders 0 and 10 both give 1. *)
Example undetected_when_check_digit_is_1 :
  value (validateRUC (lit "20000000061") constants) = true
  /\ replace_at 2 55%N (lit "20000000061") = lit "20700000061"
  /\ value (validateRUC (lit "20700000061") constants) = true.
Proof. repeat split; reflexivity. Qed.

End ErrorDetection.

(* ===================================================================== *)
(** ** The forms *)
(* ===================================================================== *)

Section Forms.

Lemma getRUCError_cases (s : jsstring) :
  (value (getRUCError s constants) = None
   /\ value (validateRUC s constants) = true)
  \/ (exists c m, value (getRUCError s constants) = Some (c :: m)
                  /\ value (validateRUC s constants) = false).
Proof.
  pose proof (truthy_getRUCError s) as H.
  destruct (value (getRUCError s constants)) as [[|c m]|] eqn:E;
    cbn [truthy] in H.
  - exfalso. rewrite getRUCError_constants in E. cbn [value] in E.
    destruct (first_violation s) as [v|]; [|discriminate].
    cbn [option_map] in E. destruct v; discriminate.
  - right. exists c, m. split; [reflexivity|].
    destruct (value (validateRUC s constants)); [discriminate | reflexivity].
  - left. split; [reflexivity|].
    destruct (value (validateRUC s constants)); [reflexivity | discriminate].
Qed.

Lemma record_validate_value (ruc name : jsstring) :
  snd (value (RecordRegisterScreen.validate ruc name constants))
    = value (validateRUC ruc constants) && validateClientName name
  /\ get_prop (fst (value (RecordRegisterScreen.validate ruc name constants)))
       "ruc" = value (getRUCError ruc constants)
  /\ get_prop (fst (value (RecordRegisterScreen.validate ruc name constants)))
       "clientName" = getClientNameError name.
Proof.
  unfold RecordRegisterScreen.validate. cbv zeta. rewrite bind_run.
  cbn [value store reads ret].
  destruct (getRUCError_cases ruc) as [[-> ->] | (c & m & -> & ->)];
    destruct (getClientNameError_cases name)
      as [[-> ->] | (c' & m' & -> & ->)];
    repeat split; reflexivity.
Qed.

Lemma validateEdit_is_validate (ruc name : jsstring) (st : Constants) :
  RecordsScreen.validateEdit ruc name st
  = RecordRegisterScreen.validate ruc name st.
Proof. reflexivity. Qed.

(** X6. The record form's [validate] returns true exactly when
    [validateRUC] accepts the RUC and [validateClientName] the name, and
    the error object it sets holds, under [ruc] and [clientName], the
    message of [getRUCError] and of [getClientNameError], or nothing. *)
Theorem record_form_validate (ruc name : jsstring) :
  snd (value (RecordRegisterScreen.validate ruc name constants))
    = value (validateRUC ruc constants) && validateClientName name
  /\ get_prop (fst (value (RecordRegisterScreen.validate ruc name constants)))
       "ruc" = value (getRUCError ruc constants)
  /\ get_prop (fst (value (RecordRegisterScreen.validate ruc name constants)))
       "clientName" = getClientNameError name.
Proof.
  unfold RecordRegisterScreen.validate. cbv zeta. rewrite bind_run.
  cbn [value store reads ret].
  destruct (getRUCError_cases ruc) as [[-> ->] | (c & m & -> & ->)];
    destruct (getClientNameError_cases name)
      as [[-> ->] | (c' & m' & -> & ->)];
    repeat split; reflexivity.
Qed.

(** X7. When the record form validates, the values it saves, the
    trimmed RUC and the trimmed name, are a string of exactly 11 digits
    that [validateRUC] accepts and a name of 2 to 200 code units; and
    the edit dialog, given the saved values back, validates them. *)
Theorem saved_record_is_valid (ruc name : jsstring) :
  snd (value (RecordRegisterScreen.validate ruc name constants)) = true ->
  List.length (trim ruc) = 11%nat
  /\ forallb is_digit (trim ruc) = true
  /\ value (validateRUC (trim ruc) constants) = true
  /\ 2 <= str_length (trim name) <= 200
  /\ snd (value (RecordsScreen.validateEdit (trim ruc) (trim name) constants))
     = true.
Proof.
  intros H. destruct (record_validate_value ruc name) as [Hs _].
  rewrite Hs in H. apply andb_true_iff in H. destruct H as [Hr Hn].
  assert (Hr' : value (validateRUC (trim ruc) constants) = true).
  { rewrite validateRUC_value, trim_idempotent, <- validateRUC_value.
    exact Hr. }
  assert (Hn' : validateClientName (trim name) = true).
  { unfold validateClientName in *. rewrite trim_idempotent. exact Hn. }
  rewrite validateRUC_value, !andb_true_iff, Nat.eqb_eq in Hr.
  destruct Hr as [[[H1 H2] _] _].
  unfold validateClientName in Hn. cbv zeta in Hn.
  rewrite andb_true_iff, !Z.leb_le in Hn.
  repeat split; try tauto.
  rewrite validateEdit_is_validate.
  destruct (record_validate_value (trim ruc) (trim name)) as [-> _].
  rewrite Hr', Hn'. reflexivity.
Qed.

Lemma saved_record_is_valid_witness :
  List.length (trim (lit " 20123456786 ")) = 11%nat
  /\ forallb is_digit (trim (lit " 20123456786 ")) = true
  /\ value (validateRUC (trim (lit " 20123456786 ")) constants) = true
  /\ 2 <= str_length (trim (lit " ACME SAC ")) <= 200
  /\ snd (value (RecordsScreen.validateEdit (trim (lit " 20123456786 "))
                   (trim (lit " ACME SAC ")) constants))
     = true.
Proof.
  apply (saved_record_is_valid (lit " 20123456786 ") (lit " ACME SAC ")).
  reflexivity.
Defined.

End Forms.

(* ===================================================================== *)
(** ** The login and sign-up forms *)
(* ===================================================================== *)

Section Credentials.

Lemma str_not_length (s : jsstring) : str_not s = (str_length s =? 0).
Proof. destruct s; reflexivity. Qed.

Lemma str_length_nonneg (s : jsstring) : 0 <= str_length s.
Proof. unfold str_length. lia. Qed.

(** [/^[a-zA-Z0-9_]+$/] accepts exactly the non-empty strings of
    letters, digits and underscores. *)
Lemma test_word (s : jsstring) :
  test_anchored UserRegisterScreen.re_word s =
  negb (str_length s =? 0) && forallb UserRegisterScreen.is_word_unit s.
Proof.
  unfold test_anchored, UserRegisterScreen.re_word, Plus.
  rewrite matches_Cat_Class.
  destruct s as [|c s]; [reflexivity|].
  rewrite matches_Star_Class. reflexivity.
Qed.

(** The username branch of either form leaves the error object empty or
    with the one key [username]. *)
Ltac decide_branches :=
  repeat match goal with
  | |- context [Z.eqb ?a ?b] => destruct (Z.eqb_spec a b)
  | |- context [Z.ltb ?a ?b] => destruct (Z.ltb_spec a b)
  | |- context [Z.leb ?a ?b] => destruct (Z.leb_spec a b)
  end.

Lemma login_validate_value (username password : jsstring) :
  snd (LoginScreen.validate username password)
  = (3 <=? str_length (trim username)) && (4 <=? str_length password).
Proof.
  unfold LoginScreen.validate. cbv zeta. rewrite !str_not_length.
  pose proof (str_length_nonneg (trim username)).
  pose proof (str_length_nonneg password).
  decide_branches; try lia; reflexivity.
Qed.

Lemma signup_validate_value (username password confirmPassword : jsstring) :
  snd (UserRegisterScreen.validate username password confirmPassword)
  = (3 <=? str_length (trim username)) && (str_length (trim username) <=? 50)
    && forallb UserRegisterScreen.is_word_unit (trim username)
    && ((4 <=? str_length password) && (str_length password <=? 100))
    && str_eqb password confirmPassword.
Proof.
  unfold UserRegisterScreen.validate. cbv zeta.
  rewrite !str_not_length, test_word, !Z.gtb_ltb. unfold str_strict_neq.
  pose proof (str_length_nonneg (trim username)).
  pose proof (str_length_nonneg password).
  pose proof (str_length_nonneg confirmPassword).
  assert (Hc : str_length confirmPassword = 0 ->
               str_length password <> 0 ->
               str_eqb password confirmPassword = false).
  { destruct confirmPassword as [|c l], password as [|c' l'];
      unfold str_length; cbn [List.length str_eqb]; intros; try lia;
      reflexivity. }
  destruct (forallb UserRegisterScreen.is_word_unit (trim username));
    destruct (str_eqb password confirmPassword) eqn:Heq;
    decide_branches; try lia; try reflexivity;
    try (rewrite Hc in Heq by lia; discriminate).
Qed.

Lemma word_unit_not_white_space (c : code_unit) :
  UserRegisterScreen.is_word_unit c = true -> is_white_space c = false.
Proof.
  unfold UserRegisterScreen.is_word_unit. intros H.
  assert (Hr : (48 <= c <= 122)%N).
  { rewrite !orb_true_iff, !andb_true_iff, !N.leb_le, N.eqb_eq in H. lia. }
  clear H. unfold is_white_space.
  repeat match goal with
  | |- context [(?a <=? ?b)%N] => destruct (N.leb_spec a b); try lia
  | |- context [(?a =? ?b)%N] => destruct (N.eqb_spec a b); try lia
  end; reflexivity.
Qed.

(** X8. The login form validates exactly when the trimmed username has
    at least 3 code units and [validatePassword] accepts the password;
    so whatever [validateUsername] and [validatePassword] accept, the
    form accepts, but it sets no upper bound on the username. *)
Theorem login_form_validate (username password : jsstring) :
  snd (LoginScreen.validate username password)
    = (3 <=? str_length (trim username)) && validatePassword password
  /\ (validateUsername username && validatePassword password = true ->
      snd (LoginScreen.validate username password) = true).
Proof.
  rewrite login_validate_value. unfold validateUsername, validatePassword.
  cbv zeta. split; [reflexivity|].
  rewrite !andb_true_iff. tauto.
Qed.

(** X9. The sign-up form validates exactly when [validateUsername]
    accepts the username, its trimmed form has only ASCII letters,
    digits and underscores, the password has 4 to 100 code units, and
    the confirmation is the same string as the password. *)
Theorem signup_form_validate (username password confirmPassword : jsstring) :
  snd (UserRegisterScreen.validate username password confirmPassword) = true
  <-> validateUsername username = true
      /\ forallb UserRegisterScreen.is_word_unit (trim username) = true
      /\ 4 <= str_length password <= 100
      /\ confirmPassword = password.
Proof.
  rewrite signup_validate_value. unfold validateUsername. cbv zeta.
  rewrite !andb_true_iff, !Z.leb_le, str_eqb_eq.
  split; intros H; repeat split; try tauto; symmetry; tauto.
Qed.

(** X10. Credentials the sign-up form accepts are accepted by
    [validateUsername], by [validatePassword] and by the login form,
    and the username it registers has no white space in it. *)
Theorem signup_accepted_then_login_accepted
    (username password confirmPassword : jsstring) :
  snd (UserRegisterScreen.validate username password confirmPassword) = true ->
  validateUsername username = true
  /\ validatePassword password = true
  /\ snd (LoginScreen.validate username password) = true
  /\ forallb (fun c => negb (is_white_space c)) (trim username) = true.
Proof.
  rewrite signup_validate_value, login_validate_value.
  unfold validateUsername, validatePassword. cbv zeta.
  rewrite !andb_true_iff.
  intros [[[[H1 H2] H3] [H4 H5]] H6]. repeat split; auto.
  rewrite forallb_forall in *. intros c Hc.
  rewrite (word_unit_not_white_space c (H3 c Hc)). reflexivity.
Qed.

Lemma signup_accepted_then_login_accepted_witness :
  validateUsername (lit " ana_01 ") = true
  /\ validatePassword (lit "s3cret") = true
  /\ snd (LoginScreen.validate (lit " ana_01 ") (lit "s3cret")) = true
  /\ forallb (fun c => negb (is_white_space c)) (trim (lit " ana_01 ")) = true.
Proof.
  apply (signup_accepted_then_login_accepted
           (lit " ana_01 ") (lit "s3cret") (lit "s3cret")).
  reflexivity.
Defined.

End Credentials.

(* ===================================================================== *)
(** ** The list of the records screen *)
(* ===================================================================== *)

Section RecordList.


(** X11. After an edit the list on screen has the same identifiers in
    the same order, every row with the edited identifier shows the
    saved record, and every other row is untouched. *)
Theorem edit_keeps_identifiers (updatedRecord : ClientRecord)
    (prev : list ClientRecord) :
  map id (handleSaveEdit_update updatedRecord prev) = map id prev
  /\ forall (n : nat) (r : ClientRecord),
       nth_error prev n = Some r ->
       nth_error (handleSaveEdit_update updatedRecord prev) n
       = Some (if id r =? id updatedRecord then updatedRecord else r).
Proof.
  unfold handleSaveEdit_update. split.
  - rewrite map_map. apply map_ext. intros r.
    destruct (Z.eqb_spec (id r) (id updatedRecord)) as [E|E]; congruence.
  - intros n r H. rewrite nth_error_map, H. reflexivity.
Qed.



End RecordList.
